(** * Access-control handlers of the document-sharing API

    Shallow embedding of [src/controllers/doc.controller.ts].  The services
    it calls ([../services/doc.service], [../services/user.service]) and the
    message table ([../config/config]) are not part of the sources; they are
    modelled from the specification and marked as such.  Identifiers
    (ObjectIds) are represented by their string form, which is what the
    handlers compare ([doc.adminId.toString() !== userId]). *)

From stdpp Require Import base gmap strings list.
From Stdlib Require Import Sorting.Permutation.

Local Open Scope string_scope.

(** ** Data model *)

(** [export enum Role]; its members are written [Role.Admin] and so on, as
    in the source. *)
Module Role.
Inductive t := Admin | readOnly | readWrite.
End Role.
Abbreviation Role := Role.t.

#[global] Instance Role_eq_dec : EqDecision Role.
Proof. solve_decision. Defined.

(** The user model: only the fields the handlers read. *)
Record user := mkUser { user_id : string; email : string }.

(** A document as stored; its [_id] is the key of the store.  The role
    arrays are optional: the handlers read them as [doc.readonly?.] *)
Record doc := mkDoc {
  name : string;
  desc : string;
  adminId : string;
  readonly : option (list string);
  readWrite : option (list string)
}.

(** The document collection, keyed by [_id]. *)
Abbreviation store := (gmap string doc).

(** The user collection, and the ids whose lookup raises (a failing query or
    an id that [new mongoose.Types.ObjectId] rejects). *)
Record directory := mkDirectory {
  dir_users : list user;
  dir_faulty : list string
}.

(** ** Messages and responses *)

(** The keys of [ERROR_MESSAGES] and [SUCCESS_MESSAGES] used by the handlers. *)
Inductive MsgKey :=
| INVALID_DOC | EMAIL_NOT_REGISTERED | ACCESS_CHANGE_NOT_ALLOWED
| UNAUTHORIZED_USER | INTERNAL_SERVER_ERROR
| DOC_CREATED | ACCESS_GRANTED | ACCESS_REMOVED.

#[global] Instance MsgKey_eq_dec : EqDecision MsgKey.
Proof. solve_decision. Defined.

(** A message is a table entry or a string literal written in the handler. *)
Inductive Msg := Key (k : MsgKey) | Lit (s : string).

(** One element of the [docs] array of [handleGetFiles]. *)
Record fileEntry := mkFileEntry {
  entry_docId : string;
  entry_name : string;
  entry_desc : string;
  entry_role : Role
}.

(** The JSON body a handler sends. *)
Inductive Body :=
| FailBody (error : Msg)                       (* { status: "fail", error } *)
| MessageBody (message : Msg)                  (* { status: "success", message } *)
| UsersBody (users : list (Role * string))     (* { status: "success", users } *)
| DocsBody (docs : list fileEntry)             (* { status: "success", docs } *)
| OkBody.                                      (* { status: "success" } *)

(** [res.status(code).json(body)], or no response at all when an awaited
    promise never settles. *)
Inductive Response := Respond (code : nat) (body : Body) | Pending.

Definition status (r : Response) : option nat :=
  match r with Respond c _ => Some c | Pending => None end.

(** ** The try block: a small exception monad *)

(** A [try] block either returns (possibly early, with [return res...]) or
    throws an [Error] carrying a message. *)
Inductive Exc (A : Type) := Ret (a : A) | Throw (m : Msg).
Arguments Ret {A} a.
Arguments Throw {A} m.

Definition exc_bind {A B} (k : A -> Exc B) (c : Exc A) : Exc B :=
  match c with Ret a => k a | Throw m => Throw m end.

#[global] Instance Exc_mbind : MBind Exc := @exc_bind.
#[global] Instance Exc_mret : MRet Exc := @Ret.

(** [try { body } catch (e) { handler(e.message) }] *)
Definition try_catch {A} (c : Exc A) (h : Msg -> A) : A :=
  match c with Ret a => a | Throw m => h m end.

(** ** Helpers of the JavaScript runtime *)

(** [arr?.includes(x)]: [undefined] (falsy) when the array is absent. *)
Definition includes (o : option (list string)) (x : string) : bool :=
  match o with Some l => bool_decide (x ∈ l) | None => false end.

(** [arr?.map(f)] *)
Definition opt_map {A B} (f : A -> B) (o : option (list A)) : option (list B) :=
  match o with Some l => Some (map f l) | None => None end.

(** [Promise.all]: each promise settles once, in an order [sched] chosen by
    the runtime (a list of indices); its value is written into the slot of
    its index.  The result is available once every slot is filled. *)
Definition settle_one {B} (rs : list B) (slots : list (option B)) (k : nat)
  : list (option B) :=
  match rs !! k with Some r => <[k := Some r]> slots | None => slots end.

Definition settle {B} (rs : list B) (sched : list nat) : list (option B) :=
  foldl (settle_one rs) (replicate (length rs) None) sched.

Fixpoint all_settled {B} (slots : list (option B)) : option (list B) :=
  match slots with
  | [] => Some []
  | None :: _ => None
  | Some x :: rest =>
      match all_settled rest with Some xs => Some (x :: xs) | None => None end
  end.

Definition promise_all {B} (sched : list nat) (rs : list B) : option (list B) :=
  all_settled (settle rs sched).

(** ** Services *)

(** Modelled from the spec: [getDocById] of [doc.service], the Document
    Store's fetch by identifier; absence is a normal result. *)
Definition getDocById (s : store) (docId : string) : option doc := s !! docId.

(** Modelled from the spec: the visibility condition of [getAllFiles] in
    [doc.service]: the user is the owner, or is in [readonly], or is in
    [readWrite]. *)
Definition visible_to (userId : string) (d : doc) : bool :=
  bool_decide (adminId d = userId)
  || includes (readonly d) userId || includes (readWrite d) userId.

(** Modelled from the spec: [getAllFiles] of [doc.service] returns every
    document visible to [userId], with its [_id]. *)
Definition getAllFiles (s : store) (userId : string) : list (string * doc) :=
  filter (fun p => visible_to userId p.2 = true) (map_to_list s).

(** [$push] of an id onto an optional role array. *)
Definition push_id (o : option (list string)) (x : string) : option (list string) :=
  Some (default [] o ++ [x])%list.

(** [$pull] of an id from an optional role array. *)
Definition pull_id (o : option (list string)) (x : string) : option (list string) :=
  match o with Some l => Some (filter (fun y => y <> x) l) | None => None end.

(** Modelled from the spec: [grantRole] of [doc.service] adds the grantee's
    id to the role set matching [role]; [Admin] names no stored set. *)
Definition grantRole (s : store) (docId : string) (d : doc) (uid : string)
    (role : Role) : store :=
  match role with
  | Role.readOnly =>
      <[docId := mkDoc (name d) (desc d) (adminId d) (push_id (readonly d) uid)
                       (readWrite d)]> s
  | Role.readWrite =>
      <[docId := mkDoc (name d) (desc d) (adminId d) (readonly d)
                       (push_id (readWrite d) uid)]> s
  | Role.Admin => s
  end.

(** Modelled from the spec: [removeRole] of [doc.service] removes the id
    from the role set matching [role]; an absent id is a no-op. *)
Definition removeRole (s : store) (docId : string) (d : doc) (uid : string)
    (role : Role) : store :=
  match role with
  | Role.readOnly =>
      <[docId := mkDoc (name d) (desc d) (adminId d) (pull_id (readonly d) uid)
                       (readWrite d)]> s
  | Role.readWrite =>
      <[docId := mkDoc (name d) (desc d) (adminId d) (readonly d)
                       (pull_id (readWrite d) uid)]> s
  | Role.Admin => s
  end.

(** Modelled from the spec: [deleteDoc] of [doc.service] removes the
    document. *)
Definition deleteDoc (s : store) (docId : string) : store := delete docId s.

(** Modelled from the spec: [findUserByEmail] of [user.service]. *)
Definition findUserByEmail (dir : directory) (e : string) : option user :=
  find (fun u => bool_decide (email u = e)) (dir_users dir).

(** Modelled from the spec: [findUserById] of [user.service], which may
    raise. *)
Definition findUserById (dir : directory) (id : string) : Exc (option user) :=
  if bool_decide (id ∈ dir_faulty dir) then Throw (Lit "lookup failed")
  else Ret (find (fun u => bool_decide (user_id u = id)) (dir_users dir)).

(** ** Handlers *)

(** [handleGetFiles]: the callback of [files.map]. *)
Definition file_entry (userId : string) (file : string * doc) : fileEntry :=
  let role :=
    if includes (readonly file.2) userId then Role.readOnly
    else if includes (readWrite file.2) userId then Role.readWrite
    else Role.Admin in
  mkFileEntry file.1 (name file.2) (desc file.2) role.

Definition handleGetFiles (s : store) (userId : string) : Response :=
  try_catch
    (let files := getAllFiles s userId in
     let data := map (file_entry userId) files in
     Ret (Respond 200 (DocsBody data)))
    (fun _ => Respond 500 (FailBody (Key INTERNAL_SERVER_ERROR))).

(** [handleGetAllUser]: the async callback of [data.map]; any failure of the
    lookup is caught and yields the placeholder. *)
Definition resolve_entry (dir : directory) (item : Role * string) : Role * string :=
  try_catch
    (u ← findUserById dir item.2;
     match u with
     | None => Throw (Lit "User not found")
     | Some u => Ret (item.1, email u)
     end)
    (fun _ => (item.1, "User not found")).

(** [if (arr && arr.length > 0) data = data.concat(arr)] *)
Definition concat_nonempty {A} (data : list A) (arr : option (list A)) : list A :=
  match arr with
  | Some a => if bool_decide (0 < length a) then (data ++ a)%list else data
  | None => data
  end.

(** [handleGetAllUser]; [sched] is the order in which the lookups settle. *)
Definition handleGetAllUser (sched : list nat) (s : store) (dir : directory)
    (userId docId : string) : Response :=
  try_catch
    (match getDocById s docId with
     | None => Ret (Respond 404 (FailBody (Lit "No document found")))
     | Some d =>
         if bool_decide (adminId d <> userId)
         then Ret (Respond 403 (FailBody (Key UNAUTHORIZED_USER)))
         else
           let readOnlyArray := opt_map (fun roleId => (Role.readOnly, roleId)) (readonly d) in
           let readWriteArray := opt_map (fun roleId => (Role.readWrite, roleId)) (readWrite d) in
           let data := concat_nonempty (concat_nonempty [] readOnlyArray) readWriteArray in
           let filteredDataPromises := map (resolve_entry dir) data in
           match promise_all sched filteredDataPromises with
           | Some filteredData => Ret (Respond 200 (UsersBody filteredData))
           | None => Ret Pending
           end
     end)
    (fun _ => Respond 500 (FailBody (Key INTERNAL_SERVER_ERROR))).

(** [handleNewAccessRole]; the result pairs the response with the store after
    the request.  Nothing is written before the only [throw], so the
    [catch] answers with the store as it was. *)
Definition handleNewAccessRole (s : store) (dir : directory)
    (userId docId reqEmail : string) (role : Role) : Response * store :=
  try_catch
    (match getDocById s docId with
     | None => Ret (Respond 404 (FailBody (Key INVALID_DOC)), s)
     | Some d =>
         if bool_decide (adminId d <> userId)
         then Throw (Key ACCESS_CHANGE_NOT_ALLOWED)
         else
           match findUserByEmail dir reqEmail with
           | None => Ret (Respond 404 (FailBody (Key EMAIL_NOT_REGISTERED)), s)
           | Some newPerson =>
               let s' := grantRole s docId d (user_id newPerson) role in
               Ret (Respond 200 (MessageBody (Key ACCESS_GRANTED)), s')
           end
     end)
    (fun m => (Respond 500 (FailBody m), s)).

(** [handleRemoveRole] *)
Definition handleRemoveRole (s : store) (dir : directory)
    (userId docId reqEmail : string) (role : Role) : Response * store :=
  try_catch
    (match getDocById s docId with
     | None => Ret (Respond 404 (FailBody (Key INVALID_DOC)), s)
     | Some d =>
         if bool_decide (adminId d <> userId)
         then Throw (Key ACCESS_CHANGE_NOT_ALLOWED)
         else
           match findUserByEmail dir reqEmail with
           | None => Ret (Respond 404 (FailBody (Key EMAIL_NOT_REGISTERED)), s)
           | Some newPerson =>
               let s' := removeRole s docId d (user_id newPerson) role in
               Ret (Respond 200 (MessageBody (Key ACCESS_REMOVED)), s')
           end
     end)
    (fun m => (Respond 500 (FailBody m), s)).

(** [handleDeleteDoc] *)
Definition handleDeleteDoc (s : store) (userId docId : string) : Response * store :=
  try_catch
    (match getDocById s docId with
     | None => Ret (Respond 404 (FailBody (Key INVALID_DOC)), s)
     | Some d =>
         if bool_decide (adminId d <> userId)
         then Throw (Key ACCESS_CHANGE_NOT_ALLOWED)
         else
           let s' := deleteDoc s docId in
           Ret (Respond 200 OkBody, s')
     end)
    (fun m => (Respond 500 (FailBody m), s)).

(** Modelled from the spec: [addDoc] of [doc.service] (createDocument)
    stores a new document with empty role sets owned by [adminId] under a
    fresh [_id] ([newId], assigned by the store); the write fails, as a
    store error, when that identity is already taken. *)
Definition addDoc (s : store) (newId : string) (name desc adminId : string)
    : Exc store :=
  if bool_decide (is_Some (s !! newId)) then Throw (Lit "duplicate key")
  else Ret (<[newId := mkDoc name desc adminId (Some []) (Some [])]> s).

(** [handleAddDoc]; [newId] is the identity the store gives the document. *)
Definition handleAddDoc (s : store) (newId : string) (userId name desc : string)
    : Response * store :=
  try_catch
    (s' ← addDoc s newId name desc userId;
     Ret (Respond 201 (MessageBody (Key DOC_CREATED)), s'))
    (fun m => (Respond 500 (FailBody m), s)).

(** ** Sample data *)

Definition doc_spec : doc := mkDoc "Spec" "v1" "a" (Some []) (Some ["b"]).
Definition store1 : store := <[ "d1" := doc_spec ]> ∅.
Definition dir1 : directory :=
  mkDirectory [mkUser "a" "a@x.com"; mkUser "b" "b@x.com"; mkUser "c" "c@x.com"] [].

Example ex_files_b :
  handleGetFiles store1 "b" = Respond 200 (DocsBody [mkFileEntry "d1" "Spec" "v1" Role.readWrite]).
Proof. vm_compute. reflexivity. Qed.

Example ex_files_c : handleGetFiles store1 "c" = Respond 200 (DocsBody []).
Proof. vm_compute. reflexivity. Qed.

Example ex_users_a :
  handleGetAllUser [0] store1 dir1 "a" "d1" = Respond 200 (UsersBody [(Role.readWrite, "b@x.com")]).
Proof. vm_compute. reflexivity. Qed.

Example ex_grant_c :
  (handleNewAccessRole store1 dir1 "a" "d1" "c@x.com" Role.readOnly).2 !! "d1"
  = Some (mkDoc "Spec" "v1" "a" (Some ["c"]) (Some ["b"])).
Proof. vm_compute. reflexivity. Qed.

Example ex_delete_b : (handleDeleteDoc store1 "b" "d1").1
  = Respond 500 (FailBody (Key ACCESS_CHANGE_NOT_ALLOWED)).
Proof. vm_compute. reflexivity. Qed.

(** ** Promise.all keeps the input order *)

Section PromiseAll.
Context {B : Type}.

Lemma length_settle_one (rs : list B) (slots : list (option B)) (k : nat) :
  length (settle_one rs slots k) = length slots.
Proof.
  unfold settle_one. destruct (rs !! k); [apply length_insert | done].
Qed.

(** After the promises of [sched] settled, a slot holds its value exactly
    when its index was scheduled. *)
Lemma settle_fold_lookup (rs : list B) (sched : list nat)
    (slots : list (option B)) (i : nat) :
  length slots = length rs ->
  Forall (fun k => k < length rs) sched ->
  foldl (settle_one rs) slots sched !! i
  = if bool_decide (i ∈ sched) then Some <$> (rs !! i) else slots !! i.
Proof.
  revert slots. induction sched as [|k sched IH]; intros slots Hlen Hall; cbn [foldl].
  - case_bool_decide as Hi; [by apply not_elem_of_nil in Hi | done].
  - apply Forall_cons in Hall as [Hk Hall].
    rewrite IH; [| by rewrite length_settle_one | done].
    unfold settle_one.
    destruct (lookup_lt_is_Some_2 rs k Hk) as [r Hr]. rewrite Hr.
    destruct (decide (i = k)) as [->|Hne].
    + rewrite (bool_decide_eq_true_2 (k ∈ k :: sched)) by set_solver.
      rewrite Hr. case_bool_decide; [done|].
      rewrite list_lookup_insert_eq; [done | lia].
    + rewrite list_lookup_insert_ne by done.
      assert (i ∈ k :: sched <-> i ∈ sched) as Hiff by set_solver.
      by do 2 case_bool_decide; naive_solver.
Qed.

Lemma all_settled_map_Some (rs : list B) : all_settled (map Some rs) = Some rs.
Proof. induction rs as [|r rs IH]; simpl; [done | by rewrite IH]. Qed.

(** Whatever order the promises settle in, [Promise.all] yields their values
    in the order of the input array. *)
Lemma promise_all_in_order (sched : list nat) (rs : list B) :
  Permutation sched (seq 0 (length rs)) -> promise_all sched rs = Some rs.
Proof.
  intros Hperm. unfold promise_all, settle.
  assert (Hin : forall i, i ∈ sched <-> i < length rs).
  { intros i. rewrite (elem_of_Permutation_proper _ _ _ Hperm), elem_of_seq. lia. }
  assert (foldl (settle_one rs) (replicate (length rs) None) sched = map Some rs)
    as ->; [| apply all_settled_map_Some].
  apply list_eq. intros i.
  rewrite settle_fold_lookup.
  - rewrite list_lookup_fmap. case_bool_decide as Hi.
    + done.
    + rewrite lookup_ge_None_2; [| rewrite length_replicate; apply Nat.nlt_ge; by rewrite <- Hin].
      rewrite lookup_ge_None_2; [done|].
      apply Nat.nlt_ge. by rewrite <- Hin.
  - by rewrite length_replicate.
  - apply Forall_forall. intros k Hk. by apply Hin.
Qed.

End PromiseAll.

(** ** Reading responses *)

Definition response_docs (r : Response) : list fileEntry :=
  match r with Respond _ (DocsBody ds) => ds | _ => [] end.

Definition response_users (r : Response) : list (Role * string) :=
  match r with Respond _ (UsersBody us) => us | _ => [] end.

(** The role set a [Role] names; [Admin] is never stored. *)
Definition role_set (d : doc) (role : Role) : option (list string) :=
  match role with
  | Role.readOnly => readonly d
  | Role.readWrite => readWrite d
  | Role.Admin => None
  end.

(** The entries [handleGetAllUser] builds before resolving them. *)
Definition merged_entries (d : doc) : list (Role * string) :=
  (map (fun roleId => (Role.readOnly, roleId)) (default [] (readonly d))
   ++ map (fun roleId => (Role.readWrite, roleId)) (default [] (readWrite d)))%list.

(** ** Lemmas on the listing of visible documents *)

Lemma handleGetFiles_eq (s : store) (userId : string) :
  handleGetFiles s userId
  = Respond 200 (DocsBody (map (file_entry userId) (getAllFiles s userId))).
Proof. reflexivity. Qed.

Lemma elem_of_getAllFiles (s : store) (userId id : string) (d : doc) :
  (id, d) ∈ getAllFiles s userId <-> s !! id = Some d /\ visible_to userId d = true.
Proof.
  unfold getAllFiles. rewrite list_elem_of_filter, elem_of_map_to_list. naive_solver.
Qed.

Lemma elem_of_handleGetFiles (s : store) (userId : string) (e : fileEntry) :
  e ∈ response_docs (handleGetFiles s userId) <->
  exists d, s !! entry_docId e = Some d /\ visible_to userId d = true /\
            e = file_entry userId (entry_docId e, d).
Proof.
  rewrite handleGetFiles_eq. simpl. rewrite list_elem_of_fmap. split.
  - intros [[id d] [-> Hin]]. apply elem_of_getAllFiles in Hin as [Hs Hv].
    exists d. done.
  - intros (d & Hs & Hv & He). exists (entry_docId e, d). split; [done|].
    by apply elem_of_getAllFiles.
Qed.

Lemma file_entry_role (userId id : string) (d : doc) :
  entry_role (file_entry userId (id, d))
  = if includes (readonly d) userId then Role.readOnly
    else if includes (readWrite d) userId then Role.readWrite
    else Role.Admin.
Proof. reflexivity. Qed.

(** ** C1 *)

(** C1 (as stated, refuted): the claim says the role of every listed
    document is Admin for its owner, else readOnly when in the read-only
    set, else readWrite.  The owner can put themself into the read-only set
    of their own document through [handleNewAccessRole]; the listing then
    reports readOnly, not Admin. *)
Lemma C1_owner_first_counterexample :
  ~ (forall (s : store) (userId : string) (e : fileEntry) (d : doc),
       e ∈ response_docs (handleGetFiles s userId) ->
       s !! entry_docId e = Some d ->
       (adminId d = userId -> entry_role e = Role.Admin) /\
       (adminId d <> userId -> includes (readonly d) userId = true ->
          entry_role e = Role.readOnly) /\
       (adminId d <> userId -> includes (readonly d) userId = false ->
          includes (readWrite d) userId = true -> entry_role e = Role.readWrite)).
Proof.
  intros H.
  set (s := (handleNewAccessRole store1 dir1 "a" "d1" "a@x.com" Role.readOnly).2).
  set (d := mkDoc "Spec" "v1" "a" (Some ["a"]) (Some ["b"])).
  set (e := mkFileEntry "d1" "Spec" "v1" Role.readOnly).
  assert (He : e ∈ response_docs (handleGetFiles s "a")).
  { vm_compute. left. }
  assert (Hs : s !! entry_docId e = Some d) by (vm_compute; reflexivity).
  destruct (H s "a" e d He Hs) as [Hadmin _].
  specialize (Hadmin eq_refl). discriminate Hadmin.
Qed.

(** C1 (amended): the role of every listed document is readOnly when the
    caller is in its read-only set, else readWrite when in its read-write
    set, else Admin; ownership is not consulted.  Hence an owner who is in
    neither role set (the data model's invariant) is reported as Admin, and
    a non-owner is reported readOnly before readWrite. *)
Lemma C1_listing_role_precedence (s : store) (userId : string) (e : fileEntry)
    (Hin : e ∈ response_docs (handleGetFiles s userId)) :
  exists d, s !! entry_docId e = Some d /\
    entry_role e = (if includes (readonly d) userId then Role.readOnly
                    else if includes (readWrite d) userId then Role.readWrite
                    else Role.Admin) /\
    (adminId d = userId -> includes (readonly d) userId = false ->
       includes (readWrite d) userId = false -> entry_role e = Role.Admin).
Proof.
  apply elem_of_handleGetFiles in Hin as (d & Hs & _ & He).
  exists d. rewrite He, file_entry_role. split; [done|]. split; [done|].
  intros _ -> ->. done.
Qed.

Lemma C1_listing_role_precedence_witness :
  mkFileEntry "d1" "Spec" "v1" Role.readWrite
    ∈ response_docs (handleGetFiles store1 "b") /\
  exists d, store1 !! "d1" = Some d /\
    Role.readWrite = (if includes (readonly d) "b" then Role.readOnly
                      else if includes (readWrite d) "b" then Role.readWrite
                      else Role.Admin) /\
    (adminId d = "b" -> includes (readonly d) "b" = false ->
       includes (readWrite d) "b" = false -> Role.readWrite = Role.Admin).
Proof.
  assert (Hin : mkFileEntry "d1" "Spec" "v1" Role.readWrite
                  ∈ response_docs (handleGetFiles store1 "b")).
  { vm_compute. left. }
  split; [exact Hin|].
  exact (C1_listing_role_precedence store1 "b" _ Hin).
Defined.

(** ** C7 *)

(** C7: a stored document appears in [listVisibleDocuments] of a user (the
    [docs] of [handleGetFiles]) exactly when the user owns it or is in one
    of its role sets; in particular it never appears for a user who is none
    of these. *)
Lemma C7_listing_visibility (s : store) (userId id : string) (d : doc)
    (Hd : s !! id = Some d) :
  id ∈ map entry_docId (response_docs (handleGetFiles s userId)) <->
  adminId d = userId \/ includes (readonly d) userId = true
  \/ includes (readWrite d) userId = true.
Proof.
  rewrite list_elem_of_fmap. split.
  - intros [e [-> He]]. apply elem_of_handleGetFiles in He as (d' & Hs & Hv & _).
    rewrite Hd in Hs. injection Hs as <-.
    unfold visible_to in Hv. apply orb_prop in Hv as [Hv|Hv]; [apply orb_prop in Hv as [Hv|Hv]|].
    + left. by apply bool_decide_eq_true in Hv.
    + by right; left.
    + by right; right.
  - intros Hvis. exists (file_entry userId (id, d)). split; [done|].
    apply elem_of_handleGetFiles. exists d. split; [done|]. split; [|done].
    unfold visible_to.
    destruct Hvis as [Ho|[Hr|Hw]].
    + by rewrite bool_decide_eq_true_2.
    + by rewrite Hr, orb_true_r.
    + by rewrite Hw, orb_true_r.
Qed.

Lemma C7_listing_visibility_witness :
  store1 !! "d1" = Some doc_spec /\
  ("d1" ∈ map entry_docId (response_docs (handleGetFiles store1 "c")) <->
   adminId doc_spec = "c" \/ includes (readonly doc_spec) "c" = true
   \/ includes (readWrite doc_spec) "c" = true).
Proof.
  assert (Hd : store1 !! "d1" = Some doc_spec) by reflexivity.
  split; [exact Hd | exact (C7_listing_visibility store1 "c" "d1" doc_spec Hd)].
Defined.

(** ** C9 *)

(** C9: the role of a listed document is Admin exactly when the caller is in
    neither of its role sets, and it does not depend on the document's owner
    field: with any other owner the same role is computed. *)
Lemma C9_admin_iff_no_membership (s : store) (userId : string) (e : fileEntry)
    (Hin : e ∈ response_docs (handleGetFiles s userId)) :
  exists d, s !! entry_docId e = Some d /\
    (entry_role e = Role.Admin <->
       includes (readonly d) userId = false /\ includes (readWrite d) userId = false) /\
    (forall owner : string,
       entry_role e
       = entry_role (file_entry userId
                       (entry_docId e, mkDoc (name d) (desc d) owner
                                               (readonly d) (readWrite d)))).
Proof.
  apply elem_of_handleGetFiles in Hin as (d & Hs & _ & He).
  exists d. split; [done|]. rewrite He, !file_entry_role. simpl. split; [|done].
  destruct (includes (readonly d) userId), (includes (readWrite d) userId);
    split; intros H; try done; by destruct H.
Qed.

Lemma C9_admin_iff_no_membership_witness :
  exists d, store1 !! "d1" = Some d /\
    (Role.readWrite = Role.Admin <->
       includes (readonly d) "b" = false /\ includes (readWrite d) "b" = false) /\
    (forall owner : string,
       Role.readWrite
       = entry_role (file_entry "b"
                       ("d1", mkDoc (name d) (desc d) owner (readonly d) (readWrite d)))).
Proof.
  assert (Hin : mkFileEntry "d1" "Spec" "v1" Role.readWrite
                  ∈ response_docs (handleGetFiles store1 "b")).
  { vm_compute. left. }
  exact (C9_admin_iff_no_membership store1 "b" _ Hin).
Defined.

(** ** Lemmas on the listing of role assignments *)

Lemma concat_nonempty_app {A} (data : list A) (o : option (list A)) :
  concat_nonempty data o = (data ++ default [] o)%list.
Proof.
  destruct o as [l|]; simpl; [|by rewrite app_nil_r].
  case_bool_decide as H; [done|]. destruct l; [by rewrite app_nil_r | simpl in H; lia].
Qed.

Lemma opt_map_default {A B} (f : A -> B) (o : option (list A)) :
  default [] (opt_map f o) = map f (default [] o).
Proof. by destruct o. Qed.

(** For the owner, [handleGetAllUser] resolves the merged entries and
    answers once [Promise.all] has settled. *)
Lemma handleGetAllUser_owner (sched : list nat) (s : store) (dir : directory)
    (userId docId : string) (d : doc) :
  s !! docId = Some d -> adminId d = userId ->
  handleGetAllUser sched s dir userId docId
  = match promise_all sched (map (resolve_entry dir) (merged_entries d)) with
    | Some fd => Respond 200 (UsersBody fd)
    | None => Pending
    end.
Proof.
  intros Hd Ho. unfold handleGetAllUser, getDocById. rewrite Hd.
  rewrite bool_decide_eq_false_2 by (intros Hn; by apply Hn).
  rewrite !concat_nonempty_app, !opt_map_default. simpl. unfold merged_entries.
  by destruct (promise_all _ _).
Qed.

Lemma handleGetAllUser_owner_settled (sched : list nat) (s : store)
    (dir : directory) (userId docId : string) (d : doc) :
  s !! docId = Some d -> adminId d = userId ->
  Permutation sched (seq 0 (length (merged_entries d))) ->
  handleGetAllUser sched s dir userId docId
  = Respond 200 (UsersBody (map (resolve_entry dir) (merged_entries d))).
Proof.
  intros Hd Ho Hp. rewrite (handleGetAllUser_owner _ _ _ _ _ d Hd Ho).
  rewrite promise_all_in_order; [done|]. by rewrite length_map.
Qed.

Lemma resolve_entry_failed (dir : directory) (r : Role) (id : string) :
  (forall u, findUserById dir id <> Ret (Some u)) ->
  resolve_entry dir (r, id) = (r, "User not found").
Proof.
  intros H. unfold resolve_entry. simpl.
  destruct (findUserById dir id) as [[u|]|m]; simpl; try done.
  by destruct (H u).
Qed.

(** ** C3 *)

(** C3: whatever order the lookups settle in, the owner's listing answers
    200 with one entry per merged role entry; entry [i] is the resolution of
    merged entry [i] alone, and when the lookup of its id fails (the user is
    absent or the lookup raises) it keeps its role with the email
    "User not found". *)
Lemma C3_placeholder_on_failed_lookup (sched : list nat) (s : store)
    (dir : directory) (userId docId : string) (d : doc)
    (Hd : s !! docId = Some d) (Ho : adminId d = userId)
    (Hp : Permutation sched (seq 0 (length (merged_entries d)))) :
  exists users,
    handleGetAllUser sched s dir userId docId = Respond 200 (UsersBody users) /\
    length users = length (merged_entries d) /\
    forall i r id, merged_entries d !! i = Some (r, id) ->
      users !! i = Some (resolve_entry dir (r, id)) /\
      ((forall u, findUserById dir id <> Ret (Some u)) ->
         users !! i = Some (r, "User not found")).
Proof.
  exists (map (resolve_entry dir) (merged_entries d)).
  split; [by apply handleGetAllUser_owner_settled|].
  split; [by rewrite length_map|].
  intros i r id Hi. rewrite list_lookup_fmap, Hi. split; [done|].
  intros Hf. simpl. by rewrite resolve_entry_failed.
Qed.

(** The example of the specification: one read-only user whose email
    resolves and one read-write user missing from the directory. *)
Definition doc_two : doc := mkDoc "Spec" "v1" "a" (Some ["b"]) (Some ["z"]).

Lemma C3_placeholder_on_failed_lookup_witness :
  exists users,
    handleGetAllUser [1; 0] (<["d2" := doc_two]> ∅) dir1 "a" "d2"
      = Respond 200 (UsersBody users) /\
    length users = length (merged_entries doc_two) /\
    forall i r id, merged_entries doc_two !! i = Some (r, id) ->
      users !! i = Some (resolve_entry dir1 (r, id)) /\
      ((forall u, findUserById dir1 id <> Ret (Some u)) ->
         users !! i = Some (r, "User not found")).
Proof.
  apply (C3_placeholder_on_failed_lookup [1; 0] _ dir1 "a" "d2" doc_two).
  - reflexivity.
  - reflexivity.
  - vm_compute. apply perm_swap.
Defined.

Example C3_spec_example :
  handleGetAllUser [1; 0] (<["d2" := doc_two]> ∅) dir1 "a" "d2"
  = Respond 200 (UsersBody [(Role.readOnly, "b@x.com"); (Role.readWrite, "User not found")]).
Proof. vm_compute. reflexivity. Qed.

(** ** C4 *)

(** C4: [listRoleAssignments] ([handleGetAllUser]) answers 404 when the
    document does not exist, whoever asks; 403 when it exists and the
    requester is not its owner; and for the owner, once the lookups have
    settled in any order, 200 with the resolved merged role entries. *)
Lemma C4_existence_then_owner (sched : list nat) (s : store) (dir : directory)
    (userId docId : string) :
  (s !! docId = None ->
     handleGetAllUser sched s dir userId docId
     = Respond 404 (FailBody (Lit "No document found"))) /\
  (forall d, s !! docId = Some d -> adminId d <> userId ->
     handleGetAllUser sched s dir userId docId
     = Respond 403 (FailBody (Key UNAUTHORIZED_USER))) /\
  (forall d, s !! docId = Some d -> adminId d = userId ->
     Permutation sched (seq 0 (length (merged_entries d))) ->
     handleGetAllUser sched s dir userId docId
     = Respond 200 (UsersBody (map (resolve_entry dir) (merged_entries d)))).
Proof.
  split; [|split].
  - intros Hn. unfold handleGetAllUser, getDocById. by rewrite Hn.
  - intros d Hd Hne. unfold handleGetAllUser, getDocById. rewrite Hd.
    by rewrite bool_decide_eq_true_2.
  - intros d Hd Ho Hp. by apply handleGetAllUser_owner_settled.
Qed.

Lemma C4_existence_then_owner_witness :
  handleGetAllUser [0] store1 dir1 "a" "d1"
  = Respond 200 (UsersBody (map (resolve_entry dir1) (merged_entries doc_spec))).
Proof.
  destruct (C4_existence_then_owner [0] store1 dir1 "a" "d1") as (_ & _ & H).
  apply (H doc_spec); [reflexivity | reflexivity | vm_compute; apply Permutation_refl].
Defined.

(** ** C5 *)

(** C5: for the owner, the listing holds the read-only entries first (each
    tagged readOnly) and then the read-write entries (each tagged
    readWrite), each resolved in the order of its role array; the answer is
    the same for every order in which the lookups settle. *)
Lemma C5_readonly_then_readwrite (sched : list nat) (s : store)
    (dir : directory) (userId docId : string) (d : doc)
    (Hd : s !! docId = Some d) (Ho : adminId d = userId)
    (Hp : Permutation sched (seq 0 (length (merged_entries d)))) :
  exists users,
    handleGetAllUser sched s dir userId docId = Respond 200 (UsersBody users) /\
    users = (map (fun id => resolve_entry dir (Role.readOnly, id)) (default [] (readonly d))
             ++ map (fun id => resolve_entry dir (Role.readWrite, id))
                    (default [] (readWrite d)))%list /\
    map fst users = (repeat Role.readOnly (length (default [] (readonly d)))
                     ++ repeat Role.readWrite (length (default [] (readWrite d))))%list /\
    handleGetAllUser sched s dir userId docId
    = handleGetAllUser (seq 0 (length (merged_entries d))) s dir userId docId.
Proof.
  assert (Hfst : forall r id, fst (resolve_entry dir (r, id)) = r).
  { intros r id. unfold resolve_entry. simpl.
    by destruct (findUserById dir id) as [[u|]|m]. }
  exists (map (resolve_entry dir) (merged_entries d)).
  split; [by apply handleGetAllUser_owner_settled|].
  split.
  { unfold merged_entries. by rewrite map_app, !map_map. }
  split.
  - unfold merged_entries. rewrite !map_app, !map_map.
    f_equal; (erewrite map_ext; [apply map_const|]); intros id; apply Hfst.
  - rewrite (handleGetAllUser_owner_settled sched s dir userId docId d Hd Ho Hp).
    symmetry. apply handleGetAllUser_owner_settled; [done|done|].
    apply Permutation_refl.
Qed.

Lemma C5_readonly_then_readwrite_witness :
  exists users,
    handleGetAllUser [1; 0] (<["d2" := doc_two]> ∅) dir1 "a" "d2"
      = Respond 200 (UsersBody users) /\
    users = (map (fun id => resolve_entry dir1 (Role.readOnly, id)) (default [] (readonly doc_two))
             ++ map (fun id => resolve_entry dir1 (Role.readWrite, id))
                    (default [] (readWrite doc_two)))%list /\
    map fst users = (repeat Role.readOnly (length (default [] (readonly doc_two)))
                     ++ repeat Role.readWrite (length (default [] (readWrite doc_two))))%list /\
    handleGetAllUser [1; 0] (<["d2" := doc_two]> ∅) dir1 "a" "d2"
    = handleGetAllUser (seq 0 (length (merged_entries doc_two)))
        (<["d2" := doc_two]> ∅) dir1 "a" "d2".
Proof.
  apply (C5_readonly_then_readwrite [1; 0] _ dir1 "a" "d2" doc_two).
  - reflexivity.
  - reflexivity.
  - vm_compute. apply perm_swap.
Defined.

(** ** C2 *)

(** C2 (the code's behaviour): when the caller is not the owner of an
    existing document, [handleNewAccessRole], [handleRemoveRole] and
    [handleDeleteDoc] throw [ACCESS_CHANGE_NOT_ALLOWED], which their [catch]
    answers with status 500, the status of internal errors, and the store
    is untouched; the sibling [handleGetAllUser] answers the same situation
    with 403. *)
Lemma C2_nonowner_answered_500 (sched : list nat) (s : store) (dir : directory)
    (userId docId reqEmail : string) (role : Role) (d : doc)
    (Hd : s !! docId = Some d) (Hne : adminId d <> userId) :
  handleNewAccessRole s dir userId docId reqEmail role
    = (Respond 500 (FailBody (Key ACCESS_CHANGE_NOT_ALLOWED)), s) /\
  handleRemoveRole s dir userId docId reqEmail role
    = (Respond 500 (FailBody (Key ACCESS_CHANGE_NOT_ALLOWED)), s) /\
  handleDeleteDoc s userId docId
    = (Respond 500 (FailBody (Key ACCESS_CHANGE_NOT_ALLOWED)), s) /\
  handleGetAllUser sched s dir userId docId
    = Respond 403 (FailBody (Key UNAUTHORIZED_USER)).
Proof.
  unfold handleNewAccessRole, handleRemoveRole, handleDeleteDoc, handleGetAllUser,
    getDocById.
  rewrite Hd, bool_decide_eq_true_2 by done. done.
Qed.

(** The failing input: user "b", who holds readWrite on "d1", asks to grant
    a role on it; the answer is 500, not 403. *)
Lemma C2_nonowner_answered_500_witness :
  status (handleNewAccessRole store1 dir1 "b" "d1" "c@x.com" Role.readOnly).1
    = Some 500 /\
  handleNewAccessRole store1 dir1 "b" "d1" "c@x.com" Role.readOnly
    = (Respond 500 (FailBody (Key ACCESS_CHANGE_NOT_ALLOWED)), store1) /\
  handleRemoveRole store1 dir1 "b" "d1" "c@x.com" Role.readOnly
    = (Respond 500 (FailBody (Key ACCESS_CHANGE_NOT_ALLOWED)), store1) /\
  handleDeleteDoc store1 "b" "d1"
    = (Respond 500 (FailBody (Key ACCESS_CHANGE_NOT_ALLOWED)), store1) /\
  handleGetAllUser [0] store1 dir1 "b" "d1"
    = Respond 403 (FailBody (Key UNAUTHORIZED_USER)).
Proof.
  split; [vm_compute; reflexivity|].
  apply (C2_nonowner_answered_500 [0] store1 dir1 "b" "d1" "c@x.com" Role.readOnly
           doc_spec); [reflexivity | discriminate].
Defined.

(** ** C6 *)

(** C6: when the document exists and the caller owns it but the email is not
    registered, [handleNewAccessRole] and [handleRemoveRole] answer 404 with
    [EMAIL_NOT_REGISTERED] and leave the store as it was. *)
Lemma C6_unregistered_email (s : store) (dir : directory)
    (userId docId reqEmail : string) (role : Role) (d : doc)
    (Hd : s !! docId = Some d) (Ho : adminId d = userId)
    (He : findUserByEmail dir reqEmail = None) :
  handleNewAccessRole s dir userId docId reqEmail role
    = (Respond 404 (FailBody (Key EMAIL_NOT_REGISTERED)), s) /\
  handleRemoveRole s dir userId docId reqEmail role
    = (Respond 404 (FailBody (Key EMAIL_NOT_REGISTERED)), s).
Proof.
  unfold handleNewAccessRole, handleRemoveRole, getDocById.
  rewrite Hd, bool_decide_eq_false_2 by (intros Hn; by apply Hn).
  by rewrite He.
Qed.

Lemma C6_unregistered_email_witness :
  handleNewAccessRole store1 dir1 "a" "d1" "nobody@x.com" Role.readWrite
    = (Respond 404 (FailBody (Key EMAIL_NOT_REGISTERED)), store1) /\
  handleRemoveRole store1 dir1 "a" "d1" "nobody@x.com" Role.readWrite
    = (Respond 404 (FailBody (Key EMAIL_NOT_REGISTERED)), store1).
Proof.
  apply (C6_unregistered_email store1 dir1 "a" "d1" "nobody@x.com" Role.readWrite
           doc_spec); vm_compute; reflexivity.
Defined.

(** ** C8 *)

Lemma pull_id_absent (o : option (list string)) (x : string) :
  includes o x = false -> pull_id o x = o.
Proof.
  destruct o as [l|]; simpl; [|done]. intros H. apply bool_decide_eq_false in H.
  f_equal. induction l as [|y l IH]; [done|].
  apply not_elem_of_cons in H as [Hy Hl].
  rewrite filter_cons, decide_True by congruence. by rewrite IH.
Qed.

Lemma removeRole_absent (s : store) (docId : string) (d : doc) (uid : string)
    (role : Role) :
  s !! docId = Some d -> includes (role_set d role) uid = false ->
  removeRole s docId d uid role = s.
Proof.
  intros Hd Hr. destruct role; simpl in *; [done | |];
    rewrite pull_id_absent by done; destruct d; by apply insert_id.
Qed.

(** C8: when the caller owns an existing document and the email is
    registered, removing a role its user does not hold answers 200 with
    [ACCESS_REMOVED] and leaves the whole store, hence every field of the
    document, unchanged. *)
Lemma C8_remove_absent_is_noop (s : store) (dir : directory)
    (userId docId reqEmail : string) (role : Role) (d : doc) (newPerson : user)
    (Hd : s !! docId = Some d) (Ho : adminId d = userId)
    (He : findUserByEmail dir reqEmail = Some newPerson)
    (Habs : includes (role_set d role) (user_id newPerson) = false) :
  handleRemoveRole s dir userId docId reqEmail role
  = (Respond 200 (MessageBody (Key ACCESS_REMOVED)), s).
Proof.
  unfold handleRemoveRole, getDocById.
  rewrite Hd, bool_decide_eq_false_2 by (intros Hn; by apply Hn).
  rewrite He. simpl. by rewrite removeRole_absent.
Qed.

Lemma C8_remove_absent_is_noop_witness :
  handleRemoveRole store1 dir1 "a" "d1" "c@x.com" Role.readWrite
  = (Respond 200 (MessageBody (Key ACCESS_REMOVED)), store1).
Proof.
  apply (C8_remove_absent_is_noop store1 dir1 "a" "d1" "c@x.com" Role.readWrite
           doc_spec (mkUser "c" "c@x.com")); vm_compute; reflexivity.
Defined.

(** ** C10 *)

(** C10: for a document id that is not in the store, each owner-gated
    handler answers 404, whoever the caller is; the existence check comes
    before the ownership check. *)
Lemma C10_missing_doc_is_404 (sched : list nat) (s : store) (dir : directory)
    (userId docId reqEmail : string) (role : Role)
    (Hn : s !! docId = None) :
  status (handleGetAllUser sched s dir userId docId) = Some 404 /\
  status (handleNewAccessRole s dir userId docId reqEmail role).1 = Some 404 /\
  status (handleRemoveRole s dir userId docId reqEmail role).1 = Some 404 /\
  status (handleDeleteDoc s userId docId).1 = Some 404.
Proof.
  unfold handleGetAllUser, handleNewAccessRole, handleRemoveRole, handleDeleteDoc,
    getDocById.
  by rewrite Hn.
Qed.

Lemma C10_missing_doc_is_404_witness :
  status (handleGetAllUser [] store1 dir1 "b" "d9") = Some 404 /\
  status (handleNewAccessRole store1 dir1 "b" "d9" "c@x.com" Role.readOnly).1 = Some 404 /\
  status (handleRemoveRole store1 dir1 "b" "d9" "c@x.com" Role.readOnly).1 = Some 404 /\
  status (handleDeleteDoc store1 "b" "d9").1 = Some 404.
Proof.
  apply (C10_missing_doc_is_404 [] store1 dir1 "b" "d9" "c@x.com" Role.readOnly).
  vm_compute. reflexivity.
Defined.

(** * Further properties of the handlers *)

(** ** Helper lemmas *)

Lemma handleNewAccessRole_owner (s : store) (dir : directory)
    (userId docId reqEmail : string) (role : Role) (d : doc) (p : user) :
  s !! docId = Some d -> adminId d = userId ->
  findUserByEmail dir reqEmail = Some p ->
  handleNewAccessRole s dir userId docId reqEmail role
  = (Respond 200 (MessageBody (Key ACCESS_GRANTED)),
     grantRole s docId d (user_id p) role).
Proof.
  intros Hd Ho He. unfold handleNewAccessRole, getDocById.
  rewrite Hd, bool_decide_eq_false_2 by (intros Hn; by apply Hn). by rewrite He.
Qed.

Lemma handleRemoveRole_owner (s : store) (dir : directory)
    (userId docId reqEmail : string) (role : Role) (d : doc) (p : user) :
  s !! docId = Some d -> adminId d = userId ->
  findUserByEmail dir reqEmail = Some p ->
  handleRemoveRole s dir userId docId reqEmail role
  = (Respond 200 (MessageBody (Key ACCESS_REMOVED)),
     removeRole s docId d (user_id p) role).
Proof.
  intros Hd Ho He. unfold handleRemoveRole, getDocById.
  rewrite Hd, bool_decide_eq_false_2 by (intros Hn; by apply Hn). by rewrite He.
Qed.

Lemma handleDeleteDoc_owner (s : store) (userId docId : string) (d : doc) :
  s !! docId = Some d -> adminId d = userId ->
  handleDeleteDoc s userId docId = (Respond 200 OkBody, delete docId s).
Proof.
  intros Hd Ho. unfold handleDeleteDoc, getDocById.
  by rewrite Hd, bool_decide_eq_false_2 by (intros Hn; by apply Hn).
Qed.

Lemma includes_push_id (o : option (list string)) (x : string) :
  includes (push_id o x) x = true.
Proof. simpl. apply bool_decide_eq_true_2. set_solver. Qed.

Lemma listed_if_visible (s : store) (uid id : string) (d : doc) :
  s !! id = Some d -> visible_to uid d = true ->
  file_entry uid (id, d) ∈ response_docs (handleGetFiles s uid).
Proof.
  intros Hd Hv. apply elem_of_handleGetFiles. exists d. done.
Qed.

Lemma not_listed_if_absent (s : store) (uid id : string) :
  s !! id = None -> id ∉ map entry_docId (response_docs (handleGetFiles s uid)).
Proof.
  intros Hn Hin. apply list_elem_of_fmap in Hin as [e [-> He]].
  apply elem_of_handleGetFiles in He as (d & Hd & _). congruence.
Qed.

Lemma handleAddDoc_fresh (s : store) (newId userId name desc : string) :
  s !! newId = None ->
  handleAddDoc s newId userId name desc
  = (Respond 201 (MessageBody (Key DOC_CREATED)),
     <[newId := mkDoc name desc userId (Some []) (Some [])]> s).
Proof.
  intros Hn. unfold handleAddDoc, addDoc. rewrite Hn.
  by rewrite bool_decide_eq_false_2 by (intros [? ?]; done).
Qed.

Lemma promise_all_nil {B} (sched : list nat) :
  promise_all sched (@nil B) = Some [].
Proof.
  unfold promise_all, settle. simpl.
  assert (foldl (settle_one (@nil B)) [] sched = []) as -> by
    (induction sched; simpl; [done | by unfold settle_one]).
  done.
Qed.

Lemma handleGetAllUser_owner_empty (sched : list nat) (s : store) (dir : directory)
    (userId docId : string) (d : doc) :
  s !! docId = Some d -> adminId d = userId ->
  default [] (readonly d) = [] -> default [] (readWrite d) = [] ->
  handleGetAllUser sched s dir userId docId = Respond 200 (UsersBody []).
Proof.
  intros Hd Ho Hro Hrw. rewrite (handleGetAllUser_owner _ _ _ _ _ d Hd Ho).
  unfold merged_entries. rewrite Hro, Hrw. simpl. by rewrite promise_all_nil.
Qed.

(** ** Creating a document *)

(** X1: creating a document under a fresh identity answers 201; its creator
    then lists it with role Admin, and the creator's listing of its role
    assignments is empty, whatever order the (no) lookups settle in. *)
Lemma X_addDoc_then_owner_views (s : store) (dir : directory) (sched : list nat)
    (newId userId name desc : string) (Hfresh : s !! newId = None) :
  (handleAddDoc s newId userId name desc).1
    = Respond 201 (MessageBody (Key DOC_CREATED)) /\
  mkFileEntry newId name desc Role.Admin
    ∈ response_docs (handleGetFiles (handleAddDoc s newId userId name desc).2 userId) /\
  handleGetAllUser sched (handleAddDoc s newId userId name desc).2 dir userId newId
    = Respond 200 (UsersBody []).
Proof.
  rewrite handleAddDoc_fresh by done. simpl. split; [done|]. split.
  - change (mkFileEntry newId name desc Role.Admin)
      with (file_entry userId (newId, mkDoc name desc userId (Some []) (Some []))).
    apply listed_if_visible; [by rewrite lookup_insert_eq|].
    unfold visible_to. simpl. by rewrite bool_decide_eq_true_2.
  - by apply (handleGetAllUser_owner_empty _ _ _ _ _
                (mkDoc name desc userId (Some []) (Some []))); [rewrite lookup_insert_eq| | |].
Qed.

Lemma X_addDoc_then_owner_views_witness :
  (handleAddDoc store1 "d2" "a" "Notes" "v2").1
    = Respond 201 (MessageBody (Key DOC_CREATED)) /\
  mkFileEntry "d2" "Notes" "v2" Role.Admin
    ∈ response_docs (handleGetFiles (handleAddDoc store1 "d2" "a" "Notes" "v2").2 "a") /\
  handleGetAllUser [] (handleAddDoc store1 "d2" "a" "Notes" "v2").2 dir1 "a" "d2"
    = Respond 200 (UsersBody []).
Proof. apply X_addDoc_then_owner_views. reflexivity. Defined.

(** X2: [handleAddDoc] does not check names: the same owner can create two
    documents with the same name and description under two fresh
    identities; both requests answer 201 and both documents are stored. *)
Lemma X_addDoc_no_name_uniqueness (s : store) (id1 id2 userId name desc : string)
    (H1 : s !! id1 = None) (H2 : s !! id2 = None) (Hne : id1 <> id2) :
  (handleAddDoc s id1 userId name desc).1
    = Respond 201 (MessageBody (Key DOC_CREATED)) /\
  (handleAddDoc (handleAddDoc s id1 userId name desc).2 id2 userId name desc).1
    = Respond 201 (MessageBody (Key DOC_CREATED)) /\
  (handleAddDoc (handleAddDoc s id1 userId name desc).2 id2 userId name desc).2 !! id1
    = Some (mkDoc name desc userId (Some []) (Some [])) /\
  (handleAddDoc (handleAddDoc s id1 userId name desc).2 id2 userId name desc).2 !! id2
    = Some (mkDoc name desc userId (Some []) (Some [])).
Proof.
  rewrite (handleAddDoc_fresh s) by done. simpl.
  rewrite handleAddDoc_fresh by (rewrite lookup_insert_ne; congruence). simpl.
  split; [done|]. split; [done|]. split.
  - rewrite lookup_insert_ne by congruence. by rewrite lookup_insert_eq.
  - by rewrite lookup_insert_eq.
Qed.

Lemma X_addDoc_no_name_uniqueness_witness :
  (handleAddDoc store1 "d2" "a" "Spec" "v1").1
    = Respond 201 (MessageBody (Key DOC_CREATED)) /\
  (handleAddDoc (handleAddDoc store1 "d2" "a" "Spec" "v1").2 "d3" "a" "Spec" "v1").1
    = Respond 201 (MessageBody (Key DOC_CREATED)) /\
  (handleAddDoc (handleAddDoc store1 "d2" "a" "Spec" "v1").2 "d3" "a" "Spec" "v1").2 !! "d2"
    = Some (mkDoc "Spec" "v1" "a" (Some []) (Some [])) /\
  (handleAddDoc (handleAddDoc store1 "d2" "a" "Spec" "v1").2 "d3" "a" "Spec" "v1").2 !! "d3"
    = Some (mkDoc "Spec" "v1" "a" (Some []) (Some [])).
Proof.
  apply X_addDoc_no_name_uniqueness; [reflexivity | reflexivity | discriminate].
Defined.

(** ** Deleting a document *)

(** X3: when the owner deletes an existing document the answer is 200; the
    document is then gone from the store and from every user's listing, a
    later [handleGetAllUser] on it answers 404, and every other document is
    untouched. *)
Lemma X_delete_then_gone (s : store) (userId docId : string) (d : doc)
    (Hd : s !! docId = Some d) (Ho : adminId d = userId) :
  (handleDeleteDoc s userId docId).1 = Respond 200 OkBody /\
  getDocById (handleDeleteDoc s userId docId).2 docId = None /\
  (forall uid, docId ∉ map entry_docId
                 (response_docs (handleGetFiles (handleDeleteDoc s userId docId).2 uid))) /\
  (forall sched dir uid, handleGetAllUser sched (handleDeleteDoc s userId docId).2 dir uid docId
                         = Respond 404 (FailBody (Lit "No document found"))) /\
  (forall id, id <> docId -> (handleDeleteDoc s userId docId).2 !! id = s !! id).
Proof.
  rewrite (handleDeleteDoc_owner s userId docId d Hd Ho). simpl.
  assert (Hn : delete docId s !! docId = None) by apply lookup_delete_eq.
  split; [done|]. split; [done|]. split; [|split].
  - intros uid. by apply not_listed_if_absent.
  - intros sched dir uid. unfold handleGetAllUser, getDocById. by rewrite Hn.
  - intros id Hne. by rewrite lookup_delete_ne.
Qed.

Lemma X_delete_then_gone_witness :
  (handleDeleteDoc store1 "a" "d1").1 = Respond 200 OkBody /\
  getDocById (handleDeleteDoc store1 "a" "d1").2 "d1" = None /\
  (forall uid, "d1" ∉ map entry_docId
                 (response_docs (handleGetFiles (handleDeleteDoc store1 "a" "d1").2 uid))) /\
  (forall sched dir uid, handleGetAllUser sched (handleDeleteDoc store1 "a" "d1").2 dir uid "d1"
                         = Respond 404 (FailBody (Lit "No document found"))) /\
  (forall id, id <> "d1" -> (handleDeleteDoc store1 "a" "d1").2 !! id = store1 !! id).
Proof. apply (X_delete_then_gone store1 "a" "d1" doc_spec); reflexivity. Defined.

(** ** Granting a role, then listing *)

(** X4: after the owner grants readOnly on an existing document to a
    registered user, the answer is 200 and that user's listing holds the
    document with its name, description and role readOnly. *)
Lemma X_grant_readOnly_then_listed (s : store) (dir : directory)
    (userId docId reqEmail : string) (d : doc) (p : user)
    (Hd : s !! docId = Some d) (Ho : adminId d = userId)
    (He : findUserByEmail dir reqEmail = Some p) :
  (handleNewAccessRole s dir userId docId reqEmail Role.readOnly).1
    = Respond 200 (MessageBody (Key ACCESS_GRANTED)) /\
  mkFileEntry docId (name d) (desc d) Role.readOnly
    ∈ response_docs (handleGetFiles
                       (handleNewAccessRole s dir userId docId reqEmail Role.readOnly).2
                       (user_id p)).
Proof.
  rewrite (handleNewAccessRole_owner s dir userId docId reqEmail _ d p Hd Ho He).
  simpl. split; [done|].
  set (d' := mkDoc (name d) (desc d) (adminId d) (push_id (readonly d) (user_id p))
                   (readWrite d)).
  assert (Hent : mkFileEntry docId (name d) (desc d) Role.readOnly
                 = file_entry (user_id p) (docId, d')).
  { unfold file_entry, d'. cbn [fst snd readonly readWrite name desc].
    by rewrite includes_push_id. }
  rewrite Hent. apply listed_if_visible; [by rewrite lookup_insert_eq|].
  unfold visible_to, d'. cbn [readonly readWrite adminId].
  rewrite includes_push_id. by rewrite orb_true_r.
Qed.

Lemma X_grant_readOnly_then_listed_witness :
  (handleNewAccessRole store1 dir1 "a" "d1" "c@x.com" Role.readOnly).1
    = Respond 200 (MessageBody (Key ACCESS_GRANTED)) /\
  mkFileEntry "d1" "Spec" "v1" Role.readOnly
    ∈ response_docs (handleGetFiles
                       (handleNewAccessRole store1 dir1 "a" "d1" "c@x.com" Role.readOnly).2
                       "c").
Proof.
  exact (X_grant_readOnly_then_listed store1 dir1 "a" "d1" "c@x.com" doc_spec
           (mkUser "c" "c@x.com") eq_refl eq_refl eq_refl).
Defined.

(** X5: after the owner grants readWrite on an existing document to a
    registered user, the answer is 200 and that user's listing holds the
    document with role readWrite, unless the user already was in the
    read-only set, which the grant leaves in place: then it is listed as
    readOnly. *)
Lemma X_grant_readWrite_then_listed (s : store) (dir : directory)
    (userId docId reqEmail : string) (d : doc) (p : user)
    (Hd : s !! docId = Some d) (Ho : adminId d = userId)
    (He : findUserByEmail dir reqEmail = Some p) :
  (handleNewAccessRole s dir userId docId reqEmail Role.readWrite).1
    = Respond 200 (MessageBody (Key ACCESS_GRANTED)) /\
  mkFileEntry docId (name d) (desc d)
    (if includes (readonly d) (user_id p) then Role.readOnly else Role.readWrite)
    ∈ response_docs (handleGetFiles
                       (handleNewAccessRole s dir userId docId reqEmail Role.readWrite).2
                       (user_id p)).
Proof.
  rewrite (handleNewAccessRole_owner s dir userId docId reqEmail _ d p Hd Ho He).
  simpl. split; [done|].
  set (d' := mkDoc (name d) (desc d) (adminId d) (readonly d)
                   (push_id (readWrite d) (user_id p))).
  assert (Hent : mkFileEntry docId (name d) (desc d)
                   (if includes (readonly d) (user_id p) then Role.readOnly
                    else Role.readWrite)
                 = file_entry (user_id p) (docId, d')).
  { unfold file_entry, d'. cbn [fst snd readonly readWrite name desc].
    by rewrite includes_push_id. }
  rewrite Hent. apply listed_if_visible; [by rewrite lookup_insert_eq|].
  unfold visible_to, d'. cbn [readonly readWrite adminId].
  rewrite includes_push_id. by rewrite orb_true_r.
Qed.

Lemma X_grant_readWrite_then_listed_witness :
  (handleNewAccessRole store1 dir1 "a" "d1" "c@x.com" Role.readWrite).1
    = Respond 200 (MessageBody (Key ACCESS_GRANTED)) /\
  mkFileEntry "d1" "Spec" "v1"
    (if includes (readonly doc_spec) "c" then Role.readOnly else Role.readWrite)
    ∈ response_docs (handleGetFiles
                       (handleNewAccessRole store1 dir1 "a" "d1" "c@x.com" Role.readWrite).2
                       "c").
Proof.
  exact (X_grant_readWrite_then_listed store1 dir1 "a" "d1" "c@x.com" doc_spec
           (mkUser "c" "c@x.com") eq_refl eq_refl eq_refl).
Defined.

(** ** Granting then removing; frame properties *)

Lemma filter_neq_absent (l : list string) (x : string) :
  x ∉ l -> filter (fun y => y <> x) l = l.
Proof.
  induction l as [|y l IH]; intros H; [done|].
  apply not_elem_of_cons in H as [Hy Hl].
  rewrite filter_cons, decide_True by congruence. by rewrite IH.
Qed.

Lemma pull_push_id (l : list string) (x : string) :
  x ∉ l -> pull_id (push_id (Some l) x) x = Some l.
Proof.
  intros H. simpl. f_equal. rewrite filter_app, filter_neq_absent by done.
  rewrite filter_cons, decide_False by congruence. by rewrite app_nil_r.
Qed.

(** X6: when the owner grants a role to a registered user who is not in
    that role's array and then removes the same role for the same email,
    both requests succeed and the store is exactly as before. *)
Lemma X_grant_then_remove_restores (s : store) (dir : directory)
    (userId docId reqEmail : string) (role : Role) (d : doc) (p : user)
    (l : list string)
    (Hd : s !! docId = Some d) (Ho : adminId d = userId)
    (He : findUserByEmail dir reqEmail = Some p)
    (Hset : role_set d role = Some l) (Hnot : user_id p ∉ l) :
  (handleNewAccessRole s dir userId docId reqEmail role).1
    = Respond 200 (MessageBody (Key ACCESS_GRANTED)) /\
  handleRemoveRole (handleNewAccessRole s dir userId docId reqEmail role).2
    dir userId docId reqEmail role
  = (Respond 200 (MessageBody (Key ACCESS_REMOVED)), s).
Proof.
  rewrite (handleNewAccessRole_owner s dir userId docId reqEmail role d p Hd Ho He).
  split; [done|]. simpl.
  destruct role; simpl in Hset; [done| |].
  - rewrite (handleRemoveRole_owner _ dir userId docId reqEmail _
               (mkDoc (name d) (desc d) (adminId d) (push_id (readonly d) (user_id p))
                      (readWrite d)) p); [| simpl; by rewrite lookup_insert_eq | done | done].
    cbn [removeRole grantRole fst snd readonly readWrite name desc adminId].
    rewrite insert_insert_eq, Hset, pull_push_id by done.
    rewrite <- Hset. destruct d. simpl. f_equal. by apply insert_id.
  - rewrite (handleRemoveRole_owner _ dir userId docId reqEmail _
               (mkDoc (name d) (desc d) (adminId d) (readonly d)
                      (push_id (readWrite d) (user_id p))) p);
      [| simpl; by rewrite lookup_insert_eq | done | done].
    cbn [removeRole grantRole fst snd readonly readWrite name desc adminId].
    rewrite insert_insert_eq, Hset, pull_push_id by done.
    rewrite <- Hset. destruct d. simpl. f_equal. by apply insert_id.
Qed.

Lemma X_grant_then_remove_restores_witness :
  (handleNewAccessRole store1 dir1 "a" "d1" "c@x.com" Role.readWrite).1
    = Respond 200 (MessageBody (Key ACCESS_GRANTED)) /\
  handleRemoveRole (handleNewAccessRole store1 dir1 "a" "d1" "c@x.com" Role.readWrite).2
    dir1 "a" "d1" "c@x.com" Role.readWrite
  = (Respond 200 (MessageBody (Key ACCESS_REMOVED)), store1).
Proof.
  apply (X_grant_then_remove_restores store1 dir1 "a" "d1" "c@x.com" Role.readWrite
           doc_spec (mkUser "c" "c@x.com") ["b"]); try reflexivity.
  apply (bool_decide_eq_false_1 ("c" ∈ ["b"])). vm_compute. reflexivity.
Defined.

(** X7: the mutating handlers touch no other document: after
    [handleNewAccessRole], [handleRemoveRole] or [handleDeleteDoc] on
    [docId], and after [handleAddDoc] under [newId], every other id maps to
    what it mapped to before, whatever the outcome. *)
Lemma X_handlers_frame (s : store) (dir : directory)
    (userId docId reqEmail newId name desc id : string) (role : Role)
    (Hne : id <> docId) (Hne' : id <> newId) :
  (handleNewAccessRole s dir userId docId reqEmail role).2 !! id = s !! id /\
  (handleRemoveRole s dir userId docId reqEmail role).2 !! id = s !! id /\
  (handleDeleteDoc s userId docId).2 !! id = s !! id /\
  (handleAddDoc s newId userId name desc).2 !! id = s !! id.
Proof.
  unfold handleNewAccessRole, handleRemoveRole, handleDeleteDoc, handleAddDoc,
    addDoc, getDocById.
  split; [|split; [|split]].
  - destruct (s !! docId) as [d|]; [|done]. case_bool_decide; [done|].
    destruct (findUserByEmail dir reqEmail); [|done].
    destruct role; simpl; [done| |]; by rewrite lookup_insert_ne.
  - destruct (s !! docId) as [d|]; [|done]. case_bool_decide; [done|].
    destruct (findUserByEmail dir reqEmail); [|done].
    destruct role; simpl; [done| |]; by rewrite lookup_insert_ne.
  - destruct (s !! docId) as [d|]; [|done]. case_bool_decide; [done|].
    simpl. unfold deleteDoc. by rewrite lookup_delete_ne.
  - case_bool_decide; [done|]. simpl. by rewrite lookup_insert_ne.
Qed.

Lemma X_handlers_frame_witness :
  (handleNewAccessRole store1 dir1 "a" "d2" "c@x.com" Role.readOnly).2 !! "d1" = store1 !! "d1" /\
  (handleRemoveRole store1 dir1 "a" "d2" "c@x.com" Role.readOnly).2 !! "d1" = store1 !! "d1" /\
  (handleDeleteDoc store1 "a" "d2").2 !! "d1" = store1 !! "d1" /\
  (handleAddDoc store1 "d3" "a" "N" "D").2 !! "d1" = store1 !! "d1".
Proof. apply X_handlers_frame; discriminate. Defined.

(** X8: a mutating handler that does not answer with its success status
    (200, or 201 for [handleAddDoc]) leaves the store unchanged: no failure
    path writes. *)
Lemma X_failure_leaves_store (s : store) (dir : directory)
    (userId docId reqEmail newId name desc : string) (role : Role) :
  ((handleNewAccessRole s dir userId docId reqEmail role).1
     <> Respond 200 (MessageBody (Key ACCESS_GRANTED)) ->
   (handleNewAccessRole s dir userId docId reqEmail role).2 = s) /\
  ((handleRemoveRole s dir userId docId reqEmail role).1
     <> Respond 200 (MessageBody (Key ACCESS_REMOVED)) ->
   (handleRemoveRole s dir userId docId reqEmail role).2 = s) /\
  ((handleDeleteDoc s userId docId).1 <> Respond 200 OkBody ->
   (handleDeleteDoc s userId docId).2 = s) /\
  ((handleAddDoc s newId userId name desc).1
     <> Respond 201 (MessageBody (Key DOC_CREATED)) ->
   (handleAddDoc s newId userId name desc).2 = s).
Proof.
  unfold handleNewAccessRole, handleRemoveRole, handleDeleteDoc, handleAddDoc,
    addDoc, getDocById.
  split; [|split; [|split]].
  - destruct (s !! docId) as [d|]; [|done]. case_bool_decide; [done|].
    destruct (findUserByEmail dir reqEmail); [|done]. simpl. by intros [].
  - destruct (s !! docId) as [d|]; [|done]. case_bool_decide; [done|].
    destruct (findUserByEmail dir reqEmail); [|done]. simpl. by intros [].
  - destruct (s !! docId) as [d|]; [|done]. case_bool_decide; [done|].
    simpl. by intros [].
  - case_bool_decide; [done|]. simpl. by intros [].
Qed.

Lemma X_failure_leaves_store_witness :
  ((handleNewAccessRole store1 dir1 "b" "d1" "c@x.com" Role.readOnly).1
     <> Respond 200 (MessageBody (Key ACCESS_GRANTED)) ->
   (handleNewAccessRole store1 dir1 "b" "d1" "c@x.com" Role.readOnly).2 = store1) /\
  ((handleRemoveRole store1 dir1 "b" "d1" "c@x.com" Role.readOnly).1
     <> Respond 200 (MessageBody (Key ACCESS_REMOVED)) ->
   (handleRemoveRole store1 dir1 "b" "d1" "c@x.com" Role.readOnly).2 = store1) /\
  ((handleDeleteDoc store1 "b" "d1").1 <> Respond 200 OkBody ->
   (handleDeleteDoc store1 "b" "d1").2 = store1) /\
  ((handleAddDoc store1 "d1" "b" "N" "D").1
     <> Respond 201 (MessageBody (Key DOC_CREATED)) ->
   (handleAddDoc store1 "d1" "b" "N" "D").2 = store1).
Proof. apply X_failure_leaves_store. Defined.

(** ** Removing a role, then listing *)

(** The role set other than the one a role names. *)
Definition other_role (r : Role) : Role :=
  match r with
  | Role.readOnly => Role.readWrite
  | Role.readWrite => Role.readOnly
  | Role.Admin => Role.Admin
  end.

Lemma includes_pull_id (o : option (list string)) (x : string) :
  includes (pull_id o x) x = false.
Proof.
  destruct o as [l|]; [|done]. simpl. apply bool_decide_eq_false_2.
  rewrite list_elem_of_filter. naive_solver.
Qed.

(** X9: when the owner removes a role of a registered user who is not the
    owner and is not in the other role set, the answer is 200 and the
    document leaves that user's listing: the removal takes out every
    occurrence of the id. *)
Lemma X_remove_then_unlisted (s : store) (dir : directory)
    (userId docId reqEmail : string) (role : Role) (d : doc) (p : user)
    (Hd : s !! docId = Some d) (Ho : adminId d = userId)
    (He : findUserByEmail dir reqEmail = Some p) (Hrole : role <> Role.Admin)
    (Hown : adminId d <> user_id p)
    (Hoth : includes (role_set d (other_role role)) (user_id p) = false) :
  (handleRemoveRole s dir userId docId reqEmail role).1
    = Respond 200 (MessageBody (Key ACCESS_REMOVED)) /\
  docId ∉ map entry_docId
    (response_docs (handleGetFiles (handleRemoveRole s dir userId docId reqEmail role).2
                      (user_id p))).
Proof.
  rewrite (handleRemoveRole_owner s dir userId docId reqEmail role d p Hd Ho He).
  split; [done|]. cbn [snd]. intros Hin.
  apply list_elem_of_fmap in Hin as [e [Hid He']].
  apply elem_of_handleGetFiles in He' as (d' & Hs & Hv & _).
  rewrite <- Hid in Hs. unfold visible_to in Hv.
  destruct role; [done| |]; cbn [removeRole] in Hs; rewrite lookup_insert_eq in Hs;
    injection Hs as <-; cbn [adminId readonly readWrite] in Hv;
    simpl in Hoth; rewrite bool_decide_eq_false_2 in Hv by done;
    rewrite includes_pull_id, Hoth in Hv; done.
Qed.

Lemma X_remove_then_unlisted_witness :
  (handleRemoveRole store1 dir1 "a" "d1" "b@x.com" Role.readWrite).1
    = Respond 200 (MessageBody (Key ACCESS_REMOVED)) /\
  "d1" ∉ map entry_docId
    (response_docs (handleGetFiles (handleRemoveRole store1 dir1 "a" "d1" "b@x.com"
                                      Role.readWrite).2 "b")).
Proof.
  apply (X_remove_then_unlisted store1 dir1 "a" "d1" "b@x.com" Role.readWrite doc_spec
           (mkUser "b" "b@x.com")); try reflexivity; discriminate.
Defined.

(** ** Edge cases of the listings *)

(** X10: for the owner of a document whose role arrays are empty or absent,
    [handleGetAllUser] answers 200 with an empty list, for any settle
    order. *)
Lemma X_getAllUser_empty_roles (sched : list nat) (s : store) (dir : directory)
    (userId docId : string) (d : doc)
    (Hd : s !! docId = Some d) (Ho : adminId d = userId)
    (Hro : default [] (readonly d) = []) (Hrw : default [] (readWrite d) = []) :
  handleGetAllUser sched s dir userId docId = Respond 200 (UsersBody []).
Proof. by apply (handleGetAllUser_owner_empty _ _ _ _ _ d). Qed.

Lemma X_getAllUser_empty_roles_witness :
  handleGetAllUser [3; 1] (<["d4" := mkDoc "N" "D" "a" None (Some [])]> ∅) dir1 "a" "d4"
  = Respond 200 (UsersBody []).
Proof. apply (X_getAllUser_empty_roles _ _ _ _ _ (mkDoc "N" "D" "a" None (Some [])));
  reflexivity. Defined.

(** X11: the listing of [handleGetFiles] never names a document twice. *)
Lemma X_files_no_duplicates (s : store) (userId : string) :
  NoDup (map entry_docId (response_docs (handleGetFiles s userId))).
Proof.
  rewrite handleGetFiles_eq. simpl. rewrite map_map.
  change (map (fun x => entry_docId (file_entry userId x)) (getAllFiles s userId))
    with ((getAllFiles s userId).*1).
  apply NoDup_fmap_fst.
  - intros id d1 d2 H1 H2. apply elem_of_getAllFiles in H1 as [H1 _].
    apply elem_of_getAllFiles in H2 as [H2 _]. congruence.
  - unfold getAllFiles. apply NoDup_filter, NoDup_map_to_list.
Qed.

(** ** What the handlers do not guard against, and what they keep *)

(** X12: [handleNewAccessRole] does not refuse the owner's own email: the
    owner granting readOnly to themself answers 200, puts the owner's id in
    the read-only array, and the owner's listing then reports the document
    as readOnly rather than Admin. *)
Lemma X_owner_self_grant (s : store) (dir : directory)
    (userId docId reqEmail : string) (d : doc) (p : user)
    (Hd : s !! docId = Some d) (Ho : adminId d = userId)
    (He : findUserByEmail dir reqEmail = Some p) (Hself : user_id p = userId) :
  (handleNewAccessRole s dir userId docId reqEmail Role.readOnly).1
    = Respond 200 (MessageBody (Key ACCESS_GRANTED)) /\
  (exists d', (handleNewAccessRole s dir userId docId reqEmail Role.readOnly).2 !! docId
                = Some d' /\ adminId d' = userId /\ includes (readonly d') userId = true) /\
  mkFileEntry docId (name d) (desc d) Role.readOnly
    ∈ response_docs (handleGetFiles
                       (handleNewAccessRole s dir userId docId reqEmail Role.readOnly).2
                       userId).
Proof.
  rewrite (handleNewAccessRole_owner s dir userId docId reqEmail _ d p Hd Ho He).
  cbn [fst snd grantRole]. split; [done|].
  set (d' := mkDoc (name d) (desc d) (adminId d) (push_id (readonly d) (user_id p))
                   (readWrite d)).
  assert (Hin : includes (readonly d') userId = true).
  { subst d'. cbn [readonly]. rewrite <- Hself. apply includes_push_id. }
  split.
  - exists d'. by rewrite lookup_insert_eq.
  - assert (Hent : mkFileEntry docId (name d) (desc d) Role.readOnly
                   = file_entry userId (docId, d')).
    { unfold file_entry. cbn [fst snd]. by rewrite Hin. }
    rewrite Hent. apply listed_if_visible; [by rewrite lookup_insert_eq|].
    unfold visible_to. by rewrite Hin, orb_true_r.
Qed.

Lemma X_owner_self_grant_witness :
  (handleNewAccessRole store1 dir1 "a" "d1" "a@x.com" Role.readOnly).1
    = Respond 200 (MessageBody (Key ACCESS_GRANTED)) /\
  (exists d', (handleNewAccessRole store1 dir1 "a" "d1" "a@x.com" Role.readOnly).2 !! "d1"
                = Some d' /\ adminId d' = "a" /\ includes (readonly d') "a" = true) /\
  mkFileEntry "d1" "Spec" "v1" Role.readOnly
    ∈ response_docs (handleGetFiles
                       (handleNewAccessRole store1 dir1 "a" "d1" "a@x.com" Role.readOnly).2
                       "a").
Proof.
  exact (X_owner_self_grant store1 dir1 "a" "d1" "a@x.com" doc_spec
           (mkUser "a" "a@x.com") eq_refl eq_refl eq_refl eq_refl).
Defined.

Lemma grantRole_fields (s : store) (docId : string) (d : doc) (uid : string)
    (role : Role) (id : string) (d' : doc) :
  s !! docId = Some d -> grantRole s docId d uid role !! id = Some d' ->
  exists d0, s !! id = Some d0 /\ name d' = name d0 /\ desc d' = desc d0 /\
             adminId d' = adminId d0.
Proof.
  intros Hd H. destruct role; cbn [grantRole] in H; [by exists d'|..];
    (destruct (decide (id = docId)) as [->|Hne];
     [rewrite lookup_insert_eq in H; injection H as <-; by exists d
     | rewrite lookup_insert_ne in H by congruence; by exists d']).
Qed.

Lemma removeRole_fields (s : store) (docId : string) (d : doc) (uid : string)
    (role : Role) (id : string) (d' : doc) :
  s !! docId = Some d -> removeRole s docId d uid role !! id = Some d' ->
  exists d0, s !! id = Some d0 /\ name d' = name d0 /\ desc d' = desc d0 /\
             adminId d' = adminId d0.
Proof.
  intros Hd H. destruct role; cbn [removeRole] in H; [by exists d'|..];
    (destruct (decide (id = docId)) as [->|Hne];
     [rewrite lookup_insert_eq in H; injection H as <-; by exists d
     | rewrite lookup_insert_ne in H by congruence; by exists d']).
Qed.

(** X13: [handleNewAccessRole], [handleRemoveRole] and [handleDeleteDoc]
    never create a document nor change the name, description or owner of
    one: every document in the store afterwards was there before with the
    same name, description and owner. *)
Lemma X_fields_immutable (s : store) (dir : directory)
    (userId docId reqEmail id : string) (role : Role) (d' : doc) :
  ((handleNewAccessRole s dir userId docId reqEmail role).2 !! id = Some d' ->
   exists d0, s !! id = Some d0 /\ name d' = name d0 /\ desc d' = desc d0 /\
              adminId d' = adminId d0) /\
  ((handleRemoveRole s dir userId docId reqEmail role).2 !! id = Some d' ->
   exists d0, s !! id = Some d0 /\ name d' = name d0 /\ desc d' = desc d0 /\
              adminId d' = adminId d0) /\
  ((handleDeleteDoc s userId docId).2 !! id = Some d' ->
   exists d0, s !! id = Some d0 /\ name d' = name d0 /\ desc d' = desc d0 /\
              adminId d' = adminId d0).
Proof.
  unfold handleNewAccessRole, handleRemoveRole, handleDeleteDoc, getDocById.
  destruct (s !! docId) as [d|] eqn:Hd;
    [| split; [|split]; intros H; by exists d'].
  split; [|split].
  - case_bool_decide as Hc; [intros H; by exists d'|].
    destruct (findUserByEmail dir reqEmail); [|intros H; by exists d'].
    apply grantRole_fields, Hd.
  - case_bool_decide as Hc; [intros H; by exists d'|].
    destruct (findUserByEmail dir reqEmail); [|intros H; by exists d'].
    apply removeRole_fields, Hd.
  - case_bool_decide as Hc; [intros H; by exists d'|].
    cbn [snd try_catch]. unfold deleteDoc. intros H.
    destruct (decide (id = docId)) as [->|Hne];
      [by rewrite lookup_delete_eq in H | rewrite lookup_delete_ne in H by congruence].
    by exists d'.
Qed.

Lemma X_fields_immutable_witness :
  ((handleNewAccessRole store1 dir1 "a" "d1" "c@x.com" Role.readOnly).2 !! "d1"
     = Some (mkDoc "Spec" "v1" "a" (Some ["c"]) (Some ["b"])) ->
   exists d0, store1 !! "d1" = Some d0 /\ "Spec" = name d0 /\ "v1" = desc d0 /\
              "a" = adminId d0) /\
  ((handleRemoveRole store1 dir1 "a" "d1" "c@x.com" Role.readOnly).2 !! "d1"
     = Some (mkDoc "Spec" "v1" "a" (Some ["c"]) (Some ["b"])) ->
   exists d0, store1 !! "d1" = Some d0 /\ "Spec" = name d0 /\ "v1" = desc d0 /\
              "a" = adminId d0) /\
  ((handleDeleteDoc store1 "a" "d1").2 !! "d1"
     = Some (mkDoc "Spec" "v1" "a" (Some ["c"]) (Some ["b"])) ->
   exists d0, store1 !! "d1" = Some d0 /\ "Spec" = name d0 /\ "v1" = desc d0 /\
              "a" = adminId d0).
Proof.
  exact (X_fields_immutable store1 dir1 "a" "d1" "c@x.com" "d1" Role.readOnly
           (mkDoc "Spec" "v1" "a" (Some ["c"]) (Some ["b"]))).
Defined.
